(** * eslint-plugin-svg-size: the [check-image-size] rule

    A shallow embedding of [src/rules/check-image-size.js] and the
    properties of its specification.

    Conventions of the embedding.
    - JavaScript strings are [string]s of (ASCII) characters.
    - JavaScript numbers are [Number]s: [NaN] or an exact rational.  The
      integers read by [parseInt] and the usual ratios are exact in IEEE
      doubles as long as they stay below 2^53; rounding is not modelled.
    - [context.report] appends to a list of diagnostics, exceptions are an
      explicit completion, and [try]/[catch] is a combinator ([Eff]).
    - The [async] functions run to completion in program order: every
      [await] is waited for, a rejected promise is an exception.
    - The rule's external collaborators ([path.relative], [fs.readFile],
      [RegExp], xmldom's [DOMParser]) are the fields of a [Host]. *)

From Stdlib Require Import String Ascii List Bool ZArith QArith Lia.
Import ListNotations.

Local Open Scope string_scope.
Local Open Scope Z_scope.

(* ------------------------------------------------------------------ *)
(** ** JavaScript builtins used by the rule *)
(* ------------------------------------------------------------------ *)

Module JS.

(** A JavaScript number. *)
Inductive Number : Type :=
| NaN
| Num (q : Q).

(** [!n] for a number: [NaN], [0] and [-0] are falsy. *)
Definition falsyNumber (n : Number) : bool :=
  match n with
  | NaN => true
  | Num q => Qeq_bool q 0
  end.

(** [a * b]. *)
Definition mul (a b : Number) : Number :=
  match a, b with
  | Num x, Num y => Num (x * y)
  | _, _ => NaN
  end.

(** [a > b]; every comparison with [NaN] is false. *)
Definition gt (a b : Number) : bool :=
  match a, b with
  | Num x, Num y => negb (Qle_bool x y)
  | _, _ => false
  end.

(** [!s] for a string or [null]: [null] and the empty string are falsy. *)
Definition falsyString (v : option string) : bool :=
  match v with
  | None => true
  | Some EmptyString => true
  | Some (String _ _) => false
  end.

(** [a || b] on strings-or-null. *)
Definition orString (a b : option string) : option string :=
  if falsyString a then b else a.

(** [ToString] of a string-or-null argument. *)
Definition ToString (v : option string) : string :=
  match v with
  | Some s => s
  | None => "null"
  end.

(** White space skipped by [parseInt] (the ASCII part of StrWhiteSpaceChar:
    TAB, LF, VT, FF, CR, SP). *)
Definition isStrWhiteSpaceChar (c : ascii) : bool :=
  let n := N_of_ascii c in
  ((9 <=? n) && (n <=? 13) || (n =? 32))%N.

Fixpoint trimStart (s : string) : string :=
  match s with
  | EmptyString => EmptyString
  | String c rest => if isStrWhiteSpaceChar c then trimStart rest else s
  end.

(** The value of a radix-10 digit, if [c] is one. *)
Definition digitValue (c : ascii) : option Z :=
  let n := Z.of_N (N_of_ascii c) in
  if (48 <=? n) && (n <=? 57) then Some (n - 48) else None.

(** The mathematical value of the longest prefix of digits of [s],
    continuing from [acc]. *)
Fixpoint digitsValue (acc : Z) (s : string) : Z :=
  match s with
  | EmptyString => acc
  | String c rest =>
      match digitValue c with
      | Some d => digitsValue (10 * acc + d) rest
      | None => acc
      end
  end.

(** The sign step of [parseInt]: a leading ["-"] makes the sign negative,
    a leading ["+"] or ["-"] is removed. *)
Definition stripSign (s : string) : Z * string :=
  match s with
  | String "-"%char rest => (-1, rest)
  | String "+"%char rest => (1, rest)
  | _ => (1, s)
  end.

(** [parseInt(string, 10)] on an already converted string. *)
Definition parseIntString (input : string) : Number :=
  let '(sign, digits) := stripSign (trimStart input) in
  match digits with
  | EmptyString => NaN
  | String c _ =>
      match digitValue c with
      | None => NaN
      | Some _ => Num (inject_Z (sign * digitsValue 0 digits))
      end
  end.

(** [parseInt(v, 10)] where [v] is what [getAttribute] returned. *)
Definition parseInt (v : option string) : Number :=
  parseIntString (ToString v).

(** [s.startsWith(p)]. *)
Definition startsWith (s p : string) : bool := String.prefix p s.

(** [s.replace(c, by)] with a one-character string pattern: only the first
    occurrence is replaced. *)
Fixpoint replaceFirst (c : ascii) (by_ : string) (s : string) : string :=
  match s with
  | EmptyString => EmptyString
  | String d rest =>
      if Ascii.eqb d c then by_ ++ rest else String d (replaceFirst c by_ rest)
  end.

End JS.

(* ------------------------------------------------------------------ *)
(** ** The part of the DOM the rule reads *)
(* ------------------------------------------------------------------ *)

Module DOM.

(** An element: its qualified name, its attributes in source order and its
    child nodes, each an element or character data. *)
#[warnings="-register-all"]
Inductive Element : Type :=
| mkElement (name : string)
            (attributes : list (string * string))
            (childNodes : list (Element + string)).

Definition nodeName (e : Element) : string :=
  match e with mkElement n _ _ => n end.

Definition attributes (e : Element) : list (string * string) :=
  match e with mkElement _ a _ => a end.

Definition childNodes (e : Element) : list (Element + string) :=
  match e with mkElement _ _ c => c end.

(** [e.getAttribute(name)]: the value of the first attribute of that name,
    [null] when there is none.  (xmldom before 0.9 answers [''] instead of
    [null]; the rule cannot tell them apart: both are falsy and both parse
    to [NaN].) *)
Fixpoint lookupAttribute (name : string) (attrs : list (string * string))
  : option string :=
  match attrs with
  | [] => None
  | (n, v) :: rest => if String.eqb n name then Some v else lookupAttribute name rest
  end.

Definition getAttribute (e : Element) (name : string) : option string :=
  lookupAttribute name (attributes e).

(** The elements named [tag] in the subtree of [e], [e] included, in
    document (pre-)order. *)
Fixpoint elementsNamed (tag : string) (e : Element) : list Element :=
  match e with
  | mkElement n _ children =>
      ((if String.eqb n tag then [e] else [])
        ++ flat_map (fun child =>
                       match child with
                       | inl e' => elementsNamed tag e'
                       | inr _ => []
                       end) children)%list
  end.

(** [e.getElementsByTagName(tag)]: the descendants of [e] (not [e] itself)
    named [tag], in document order. *)
Definition getElementsByTagName (e : Element) (tag : string) : list Element :=
  flat_map (fun child =>
              match child with
              | inl e' => elementsNamed tag e'
              | inr _ => []
              end) (childNodes e).

(** A document; [documentElement] is [null] when there is no root element. *)
Record Document : Type := mkDocument { documentElement : option Element }.

End DOM.

(* ------------------------------------------------------------------ *)
(** ** Diagnostics, effects and the host *)
(* ------------------------------------------------------------------ *)

(** What [context.report] receives: the [messageId] with its [data].  The
    location is the same in every report (line 1, column 0) and is left
    out. *)
Inductive Diagnostic : Type :=
| invalidSvg (error : string)
| missingSvgDimensions
| oversizedImage (imageWidth imageHeight svgWidth svgHeight : JS.Number)
                 (filename : string).

(** How a piece of code completes: normally with a value, or by throwing
    an error with a [message]. *)
Inductive Completion (A : Type) : Type :=
| Normal (a : A)
| Throw (message : string).
Arguments Normal {A} a.
Arguments Throw {A} message.

(** Code that reports diagnostics and may throw: the reports made so far
    go in, the completion and the reports made so far come out. *)
Definition Eff (A : Type) : Type :=
  list Diagnostic -> Completion A * list Diagnostic.

Definition ret {A} (a : A) : Eff A := fun reports => (Normal a, reports).

Definition bind {A B} (m : Eff A) (k : A -> Eff B) : Eff B :=
  fun reports =>
    match m reports with
    | (Normal a, reports') => k a reports'
    | (Throw message, reports') => (Throw message, reports')
    end.

(** A pure computation that may throw, run inside [Eff]. *)
Definition lift {A} (c : Completion A) : Eff A := fun reports => (c, reports).

(** [context.report(d)]. *)
Definition report (d : Diagnostic) : Eff unit :=
  fun reports => (Normal tt, (reports ++ [d])%list).

(** [try { body } catch (error) { handler(error.message) }]. *)
Definition try_catch {A} (body : Eff A) (handler : string -> Eff A) : Eff A :=
  fun reports =>
    match body reports with
    | (Normal a, reports') => (Normal a, reports')
    | (Throw message, reports') => handler message reports'
    end.

Notation "x <- m ;; k" := (bind m (fun x => k))
  (at level 61, m at next level, right associativity).
Notation "m ;;; k" := (bind m (fun _ => k))
  (at level 61, right associativity).

(** [for (let i = 0; i < items.length; i++) body(items[i])]. *)
Fixpoint forEach {A} (items : list A) (body : A -> Eff unit) : Eff unit :=
  match items with
  | [] => ret tt
  | item :: rest => body item ;;; forEach rest body
  end.

(** The diagnostics a run reports, starting from none. *)
Definition diagnostics {A} (m : Eff A) : list Diagnostic := snd (m []).

(** The collaborators outside the rule.
    - [path_relative p] is [path.relative(process.cwd(), p)].
    - [fs_readFile p] is [await fs.readFile(p, 'utf8')]; a rejected promise
      is a [Throw].
    - [RegExp src] is [new RegExp(src)], a [Throw] for a [SyntaxError],
      otherwise the [test] method of the expression.
    - [parseFromString content] is
      [new DOMParser().parseFromString(content, 'application/xml')]: a
      [Throw] for the parser's fatal errors, [None] where the parser hands
      back no document at all, otherwise the document. *)
Record Host : Type := mkHost {
  path_relative : string -> string;
  fs_readFile : string -> Completion string;
  RegExp : string -> Completion (string -> bool);
  parseFromString : string -> Completion (option DOM.Document)
}.

(** [context.options[0]], as far as the schema allows it to vary. *)
Record Options : Type := mkOptions {
  opt_maxSizeRatio : option JS.Number;
  opt_ignorePaths : option (list string)
}.

(** The message V8 gives when a property of [undefined] is read. *)
Definition undefinedDocumentMessage : string :=
  "Cannot read properties of undefined (reading 'documentElement')".

(* ------------------------------------------------------------------ *)
(** ** The rule: [create(context)] *)
(* ------------------------------------------------------------------ *)

Section Rule.

Variable host : Host.
(** [context.options[0]]; [None] when the rule is configured without
    options. *)
Variable context_options : option Options.

(** [const options = context.options[0] || {}] *)
Definition options : Options :=
  match context_options with
  | Some o => o
  | None => mkOptions None None
  end.

(** [const maxSizeRatio = options.maxSizeRatio || 2] *)
Definition maxSizeRatio : JS.Number :=
  match opt_maxSizeRatio options with
  | Some n => if JS.falsyNumber n then JS.Num 2 else n
  | None => JS.Num 2
  end.

(** [const ignorePaths = options.ignorePaths || []] *)
Definition ignorePaths : list string :=
  match opt_ignorePaths options with
  | Some paths => paths
  | None => []
  end.

(** [array.some(predicate)]: stops at the first element the predicate
    accepts; an exception of the predicate propagates. *)
Fixpoint some {A} (predicate : A -> Completion bool) (array : list A)
  : Completion bool :=
  match array with
  | [] => Normal false
  | x :: rest =>
      match predicate x with
      | Throw message => Throw message
      | Normal true => Normal true
      | Normal false => some predicate rest
      end
  end.

(** The regular expression source made of an ignore path:
    [ignorePath.replace('*', '.*')]. *)
Definition ignorePatternSource (ignorePath : string) : string :=
  JS.replaceFirst "*" ".*" ignorePath.

Definition shouldIgnoreFile (filePath : string) : Completion bool :=
  let relativePath := path_relative host filePath in
  some (fun ignorePath =>
          match RegExp host (ignorePatternSource ignorePath) with
          | Throw message => Throw message
          | Normal ignorePattern_test => Normal (ignorePattern_test relativePath)
          end) ignorePaths.

Definition parseSvgContent (content : string)
  : Completion (option DOM.Document) :=
  parseFromString host content.

(** [doc.documentElement]; a [TypeError] when [doc] is [undefined]. *)
Definition get_documentElement (doc : option DOM.Document)
  : Completion (option DOM.Element) :=
  match doc with
  | Some d => Normal (DOM.documentElement d)
  | None => Throw undefinedDocumentMessage
  end.

(** The body of the loop over the [image] elements. *)
Definition checkImage (filePath : string) (svgWidth svgHeight : JS.Number)
           (image : DOM.Element) : Eff unit :=
  let imageWidth := JS.parseInt (DOM.getAttribute image "width") in
  let imageHeight := JS.parseInt (DOM.getAttribute image "height") in
  let href := JS.orString (DOM.getAttribute image "href")
                          (DOM.getAttribute image "xlink:href") in
  if JS.falsyNumber imageWidth || JS.falsyNumber imageHeight
     || JS.falsyString href
  then ret tt (* continue *)
  else
    if JS.startsWith (JS.ToString href) "data:image" then
      if JS.gt imageWidth (JS.mul svgWidth maxSizeRatio)
         || JS.gt imageHeight (JS.mul svgHeight maxSizeRatio)
      then report (oversizedImage imageWidth imageHeight svgWidth svgHeight
                                  (path_relative host filePath))
      else ret tt
    else ret tt.

Definition checkSvgContent (filePath content : string) : Eff unit :=
  try_catch
    (doc <- lift (parseSvgContent content) ;;
     svg <- lift (get_documentElement doc) ;;
     match svg with
     | None => report (invalidSvg "Not a valid SVG file")
     | Some svg =>
         if negb (String.eqb (DOM.nodeName svg) "svg")
         then report (invalidSvg "Not a valid SVG file")
         else
           let svgWidth := JS.parseInt (DOM.getAttribute svg "width") in
           let svgHeight := JS.parseInt (DOM.getAttribute svg "height") in
           if JS.falsyNumber svgWidth || JS.falsyNumber svgHeight
           then report missingSvgDimensions
           else
             let images := DOM.getElementsByTagName svg "image" in
             forEach images (checkImage filePath svgWidth svgHeight)
     end)
    (fun error_message => report (invalidSvg error_message)).

Definition checkSvgFile (filePath : string) : Eff unit :=
  try_catch
    (ignore <- lift (shouldIgnoreFile filePath) ;;
     if (ignore : bool) then ret tt
     else
       content <- lift (fs_readFile host filePath) ;;
       checkSvgContent filePath content)
    (fun error_message => report (invalidSvg error_message)).

(** The [Program] handler on the file [context.getFilename()]. *)
Definition Program (filename : string) : Eff unit :=
  try_catch (checkSvgFile filename)
            (fun error_message => report (invalidSvg error_message)).

End Rule.

(* ------------------------------------------------------------------ *)
(** ** Vocabulary of the specification *)
(* ------------------------------------------------------------------ *)

Module Spec.

Fixpoint allChars (p : ascii -> bool) (s : string) : bool :=
  match s with
  | EmptyString => true
  | String c rest => p c && allChars p rest
  end.







(** The reference of an [image] element as the rule reads it: [href] when
    it is present and not empty, otherwise [xlink:href]. *)
Definition imageReference (image : DOM.Element) : option string :=
  JS.orString (DOM.getAttribute image "href")
              (DOM.getAttribute image "xlink:href").


(** An embedded image: its reference starts with ["data:image"]. *)
Definition embedded (image : DOM.Element) : bool :=
  match imageReference image with
  | Some r => negb (JS.falsyString (Some r)) && JS.startsWith r "data:image"
  | None => false
  end.

Definition imageWidth (image : DOM.Element) : JS.Number :=
  JS.parseInt (DOM.getAttribute image "width").

Definition imageHeight (image : DOM.Element) : JS.Number :=
  JS.parseInt (DOM.getAttribute image "height").

(** An embedded image with resolved dimensions, one of which is strictly
    larger than the root's times the ratio. *)
Definition exceeds (ratio svgWidth svgHeight : JS.Number)
           (image : DOM.Element) : bool :=
  negb (JS.falsyNumber (imageWidth image))
  && negb (JS.falsyNumber (imageHeight image))
  && embedded image
  && (JS.gt (imageWidth image) (JS.mul svgWidth ratio)
      || JS.gt (imageHeight image) (JS.mul svgHeight ratio)).

(** The diagnostic of an offending image. *)
Definition oversizedDiagnostic (filename : string)
           (svgWidth svgHeight : JS.Number) (image : DOM.Element)
  : Diagnostic :=
  oversizedImage (imageWidth image) (imageHeight image) svgWidth svgHeight
                 filename.

(** [a > b * ratio] as a statement about numbers: all three are numbers
    (none is [NaN]) and the inequality is strict. *)
Definition StrictlyLarger (a b ratio : JS.Number) : Prop :=
  exists x y k : Q,
    a = JS.Num x /\ b = JS.Num y /\ ratio = JS.Num k /\ (y * k < x)%Q.

(** The same in the words of the specification: the image is embedded,
    both its dimensions are resolved, and its width or its height is
    strictly larger than the root's times the ratio. *)
Definition Offending (ratio svgWidth svgHeight : JS.Number)
           (image : DOM.Element) : Prop :=
  embedded image = true
  /\ JS.falsyNumber (imageWidth image) = false
  /\ JS.falsyNumber (imageHeight image) = false
  /\ (StrictlyLarger (imageWidth image) svgWidth ratio
      \/ StrictlyLarger (imageHeight image) svgHeight ratio).

Definition isOversizedImage (d : Diagnostic) : bool :=
  match d with
  | oversizedImage _ _ _ _ _ => true
  | _ => false
  end.



(** White space of XML: space, tab, line feed, carriage return. *)
Definition isXmlSpace (c : ascii) : bool :=
  let n := N_of_ascii c in
  ((n =? 32) || (n =? 9) || (n =? 10) || (n =? 13))%N.

Definition whitespaceOnly (content : string) : bool :=
  allChars isXmlSpace content.

Fixpoint containsChar (c : ascii) (s : string) : bool :=
  match s with
  | EmptyString => false
  | String d rest => Ascii.eqb d c || containsChar c rest
  end.

(** What is asked of the XML parser: it finds a root element only in
    input that has a ["<"]. *)
Definition RootNeedsMarkup (host : Host) : Prop :=
  forall content doc root,
    parseFromString host content = Normal (Some doc) ->
    DOM.documentElement doc = Some root ->
    containsChar "<" content = true.

(** Every ignore path before position [i] gives a regular expression that
    compiles. *)
Definition CompileUpTo (host : Host) (paths : list string) (i : nat) : Prop :=
  forall j p,
    (j < i)%nat ->
    nth_error paths j = Some p ->
    exists test, RegExp host (ignorePatternSource p) = Normal test.

(** [Descendant d e]: the element [d] is a child of [e], or a descendant
    of one of its child elements. *)
Inductive Descendant : DOM.Element -> DOM.Element -> Prop :=
| descendant_child (d e : DOM.Element) :
    In (inl d) (DOM.childNodes e) -> Descendant d e
| descendant_deeper (d c e : DOM.Element) :
    In (inl c) (DOM.childNodes e) -> Descendant d c -> Descendant d e.

(** The diagnostic with another file name in its data; only
    [oversizedImage] carries one. *)
Definition setFilename (filename : string) (d : Diagnostic) : Diagnostic :=
  match d with
  | oversizedImage w h W H _ => oversizedImage w h W H filename
  | other => other
  end.

(** The ignore path gives a regular expression that compiles and tests
    true on the relative path. *)
Definition Matches (host : Host) (relativePath ignorePath : string) : Prop :=
  exists test,
    RegExp host (ignorePatternSource ignorePath) = Normal test
    /\ test relativePath = true.

End Spec.

(* ------------------------------------------------------------------ *)
(** ** A concrete host and sample documents *)
(* ------------------------------------------------------------------ *)

Module Fixture.

(** Regular expressions over literal characters, ["."] and the postfix
    quantifiers ["*"] and ["+"]: the fragment that ignore paths without
    other metacharacters produce.  On this fragment [compile] and [search]
    follow JavaScript; a pattern outside it is refused. *)
Inductive Atom : Type :=
| AnyChar
| Literal (c : ascii).

Definition isOtherMetaChar (c : ascii) : bool :=
  existsb (Ascii.eqb c)
          ["\"; "^"; "$"; "?"; "("; ")"; "["; "]"; "{"; "}"; "|"]%char.

Definition isQuantifier (c : ascii) : bool :=
  Ascii.eqb c "*" || Ascii.eqb c "+".

Definition atomOf (c : ascii) : Atom :=
  if Ascii.eqb c "." then AnyChar else Literal c.

(** The items of a pattern, each an atom and whether it may repeat (an
    atom under ["+"] is the atom once and then repeated); otherwise the
    reason of the [SyntaxError]: a quantifier with nothing before it to
    repeat. *)
Fixpoint compile (src : string) : list (Atom * bool) + string :=
  match src with
  | EmptyString => inl []
  | String c rest =>
      if isQuantifier c then inr "Nothing to repeat"
      else if isOtherMetaChar c then inr "outside the fragment"
      else
        match rest with
        | String "*"%char rest' =>
            match compile rest' with
            | inl items => inl ((atomOf c, true) :: items)
            | inr reason => inr reason
            end
        | String "+"%char rest' =>
            match compile rest' with
            | inl items => inl ((atomOf c, false) :: (atomOf c, true) :: items)
            | inr reason => inr reason
            end
        | _ =>
            match compile rest with
            | inl items => inl ((atomOf c, false) :: items)
            | inr reason => inr reason
            end
        end
  end.

(** ["."] matches every character but the line terminators. *)
Definition atomMatches (a : Atom) (c : ascii) : bool :=
  match a with
  | AnyChar => negb (Ascii.eqb c "010" || Ascii.eqb c "013")
  | Literal l => Ascii.eqb c l
  end.

(** Does a prefix of [s] match the items? *)
Fixpoint matchHere (items : list (Atom * bool)) : string -> bool :=
  match items with
  | [] => fun _ => true
  | (a, false) :: rest =>
      fun s =>
        match s with
        | EmptyString => false
        | String c s' => atomMatches a c && matchHere rest s'
        end
  | (a, true) :: rest =>
      fix star (s : string) : bool :=
        matchHere rest s
        || match s with
           | EmptyString => false
           | String c s' => atomMatches a c && star s'
           end
  end.

(** [regexp.test(s)] without anchors: a match may start anywhere. *)
Fixpoint search (items : list (Atom * bool)) (s : string) : bool :=
  matchHere items s
  || match s with
     | EmptyString => false
     | String _ s' => search items s'
     end.

Definition regExp (src : string) : Completion (string -> bool) :=
  match compile src with
  | inl items => Normal (search items)
  | inr reason =>
      Throw ("Invalid regular expression: /" ++ src ++ "/: " ++ reason)
  end.

Fixpoint lookup {A} (key : string) (table : list (string * A)) : option A :=
  match table with
  | [] => None
  | (k, a) :: rest => if String.eqb k key then Some a else lookup key rest
  end.

(** [path.relative] from the working directory ["/work"]. *)
Definition relative (p : string) : string :=
  if String.prefix "/work/" p then String.substring 6 (String.length p - 6) p
  else p.

(** A host over a table of files and a table of the documents the parser
    builds from their content; reading an unknown file and parsing unknown
    content fail. *)
Definition hostOf (files : list (string * string))
           (documents : list (string * DOM.Document)) : Host :=
  {| path_relative := relative;
     fs_readFile := fun p =>
       match lookup p files with
       | Some content => Normal content
       | None => Throw ("ENOENT: no such file or directory, open '" ++ p ++ "'")
       end;
     RegExp := regExp;
     parseFromString := fun content =>
       match lookup content documents with
       | Some doc => Normal (Some doc)
       | None => Throw "missing root element"
       end |}.

Definition image (w h : string) (ref : list (string * string)) : DOM.Element :=
  DOM.mkElement "image" ([("width", w); ("height", h)] ++ ref) [].

Definition svg (attrs : list (string * string)) (images : list DOM.Element)
  : DOM.Document :=
  DOM.mkDocument (Some (DOM.mkElement "svg" attrs (map inl images))).

Definition png : list (string * string) :=
  [("href", "data:image/png;base64,AA==")].

Definition xlink : string * string :=
  ("xmlns:xlink", "http://www.w3.org/1999/xlink").

(** The offending example of the README: a 300x300 image in a 100x100
    root. *)
Definition badText : string :=
  "<svg width='100' height='100'><image width='300' height='300' href='data:image/png;base64,AA=='/></svg>".
Definition bad : DOM.Document :=
  svg [("width", "100"); ("height", "100")] [image "300" "300" png].

(** The compliant example of the README: 150x150 in 100x100. *)
Definition goodText : string :=
  "<svg width='100' height='100'><image width='150' height='150' href='data:image/png;base64,AA=='/></svg>".
Definition good : DOM.Document :=
  svg [("width", "100"); ("height", "100")] [image "150" "150" png].

(** Exactly twice the root, and one more than twice its width. *)
Definition twiceText : string :=
  "<svg width='100' height='100'><image width='200' height='200' href='data:image/png;base64,AA=='/></svg>".
Definition twice : DOM.Document :=
  svg [("width", "100"); ("height", "100")] [image "200" "200" png].
Definition wideText : string :=
  "<svg width='100' height='100'><image width='201' height='10' href='data:image/png;base64,AA=='/></svg>".
Definition wide : DOM.Document :=
  svg [("width", "100"); ("height", "100")] [image "201" "10" png].

(** A root without a width, and one of width zero. *)
Definition noWidthText : string :=
  "<svg height='100'><image width='300' height='300' href='data:image/png;base64,AA=='/></svg>".
Definition noWidth : DOM.Document :=
  svg [("height", "100")] [image "300" "300" png].
Definition zeroWidthText : string :=
  "<svg width='0px' height='100'><image width='300' height='300' href='data:image/png;base64,AA=='/></svg>".
Definition zeroWidth : DOM.Document :=
  svg [("width", "0px"); ("height", "100")] [image "300" "300" png].

(** Dimensions with units. *)
Definition pixelsText : string :=
  "<svg width='100px' height='100px'><image width='300px' height='300px' href='data:image/png;base64,AA=='/></svg>".
Definition pixels : DOM.Document :=
  svg [("width", "100px"); ("height", "100px")] [image "300px" "300px" png].

(** Negative dimensions, on the root and on an image. *)
Definition negativeRootText : string :=
  "<svg width='-5' height='100'><image width='10' height='10' href='data:image/png;base64,AA=='/></svg>".
Definition negativeRoot : DOM.Document :=
  svg [("width", "-5"); ("height", "100")] [image "10" "10" png].
Definition negativeImageText : string :=
  "<svg width='100' height='100'><image width='-5' height='300' href='data:image/png;base64,AA=='/></svg>".
Definition negativeImage : DOM.Document :=
  svg [("width", "100"); ("height", "100")] [image "-5" "300" png].

(** An [href] that is present and empty, beside an embedded
    [xlink:href]. *)
Definition emptyHrefText : string :=
  "<svg xmlns:xlink='http://www.w3.org/1999/xlink' width='100' height='100'><image width='300' height='300' href='' xlink:href='data:image/png;base64,AA=='/></svg>".
Definition emptyHrefImage : DOM.Element :=
  image "300" "300"
        [("href", EmptyString); ("xlink:href", "data:image/png;base64,AA==")].
Definition emptyHref : DOM.Document :=
  svg [xlink; ("width", "100"); ("height", "100")] [emptyHrefImage].


(** A 100x50 root with three embedded images, the second one compliant
    and nested in a group, the first and the third offending (by width, by
    height), and text between them. *)
Definition threeText : string :=
  "<svg xmlns:xlink='http://www.w3.org/1999/xlink' width='100' height='50'><image width='300' height='10' href='data:image/png;base64,AA=='/> <g><image width='200' height='100' href='data:image/png;base64,AA=='/></g><image width='20' height='101' xlink:href='data:image/jpeg;base64,AA=='/></svg>".
Definition threeRoot : DOM.Element :=
  DOM.mkElement "svg" [xlink; ("width", "100"); ("height", "50")]
    [inl (image "300" "10" png);
     inr " ";
     inl (DOM.mkElement "g" [] [inl (image "200" "100" png)]);
     inl (image "20" "101" [("xlink:href", "data:image/jpeg;base64,AA==")])].
Definition three : DOM.Document := DOM.mkDocument (Some threeRoot).

(** A root named in capitals. *)
Definition capitalsText : string :=
  "<SVG width='100' height='100'><image width='300' height='300' href='data:image/png;base64,AA=='/></SVG>".
Definition capitals : DOM.Document :=
  DOM.mkDocument
    (Some (DOM.mkElement "SVG" [("width", "100"); ("height", "100")]
                         [inl (image "300" "300" png)])).

Definition documents : list (string * DOM.Document) :=
  [(badText, bad); (goodText, good); (twiceText, twice); (wideText, wide);
   (noWidthText, noWidth); (zeroWidthText, zeroWidth); (pixelsText, pixels);
   (negativeRootText, negativeRoot); (negativeImageText, negativeImage);
   (emptyHrefText, emptyHref); (threeText, three);
   (capitalsText, capitals)].

Definition files : list (string * string) :=
  [("/work/bad.svg", badText);
   ("/work/good.svg", goodText);
   ("/work/assets/icons/logo.svg", badText);
   ("/work/blank.svg", "   ")].

Definition host : Host := hostOf files documents.

(** A 300x300 image inside a group and an inner, larger [svg] element
    of a 100x100 root. *)
Definition nestedText : string :=
  "<svg width='100' height='100'><g><svg width='1000' height='1000'><image width='300' height='300' href='data:image/png;base64,AA=='/></svg></g></svg>".
Definition nestedInner : DOM.Element :=
  DOM.mkElement "svg" [("width", "1000"); ("height", "1000")]
                [inl (image "300" "300" png)].
Definition nestedRoot : DOM.Element :=
  DOM.mkElement "svg" [("width", "100"); ("height", "100")]
                [inl (DOM.mkElement "g" [] [inl nestedInner])].
Definition nested : DOM.Document := DOM.mkDocument (Some nestedRoot).
Definition nestedHost : Host := hostOf [] [(nestedText, nested)].

End Fixture.

(* ------------------------------------------------------------------ *)
(** ** [parseInt] reads the integer prefix *)
(* ------------------------------------------------------------------ *)

Section ParseInt.

Import JS Spec.














Lemma falsyNumber_inject_Z (z : Z) :
  falsyNumber (Num (inject_Z z)) = true <-> z = 0.
Proof.
  simpl. rewrite Qeq_bool_iff. unfold Qeq, inject_Z. simpl. lia.
Qed.

Lemma null_has_no_integer : parseInt None = NaN.
Proof. reflexivity. Qed.


End ParseInt.

(* ------------------------------------------------------------------ *)
(** ** What the rule's functions compute *)
(* ------------------------------------------------------------------ *)

Section RuleFacts.

Import JS Spec.

Variable host : Host.
Variable context_options : option Options.

Lemma gt_Num (x y : Q) : gt (Num x) (Num y) = true <-> (y < x)%Q.
Proof.
  simpl. rewrite negb_true_iff, <- not_true_iff_false, Qle_bool_iff.
  split; [apply Qnot_le_lt | apply Qlt_not_le].
Qed.

(** The ratio in force is a number, and never a falsy one. *)
Lemma maxSizeRatio_Num :
  exists k, maxSizeRatio context_options = Num k /\ ~ (k == 0)%Q.
Proof.
  unfold maxSizeRatio.
  destruct (opt_maxSizeRatio (options context_options)) as [[|q]|]; simpl.
  - exists 2%Q. split; [reflexivity | discriminate].
  - destruct (Qeq_bool q 0) eqn:Hq.
    + exists 2%Q. split; [reflexivity | discriminate].
    + exists q. split; [reflexivity|].
      intros H. apply Qeq_bool_iff in H. congruence.
  - exists 2%Q. split; [reflexivity | discriminate].
Qed.

(** One turn of the loop reports the image when it [exceeds], and nothing
    otherwise; it never throws. *)
Lemma checkImage_reports (filePath : string) (svgWidth svgHeight : Number)
      (image : DOM.Element) (reports : list Diagnostic) :
  checkImage host context_options filePath svgWidth svgHeight image reports
  = (Normal tt,
     reports
       ++ (if exceeds (maxSizeRatio context_options) svgWidth svgHeight image
           then [oversizedDiagnostic (path_relative host filePath)
                                     svgWidth svgHeight image]
           else []))%list.
Proof.
  unfold checkImage, exceeds, embedded, imageReference, oversizedDiagnostic,
    imageWidth, imageHeight.
  destruct (falsyNumber (parseInt (DOM.getAttribute image "width")));
    [simpl; unfold ret; rewrite app_nil_r; reflexivity|].
  destruct (falsyNumber (parseInt (DOM.getAttribute image "height")));
    [simpl; unfold ret; rewrite app_nil_r; reflexivity|].
  destruct (orString (DOM.getAttribute image "href")
                     (DOM.getAttribute image "xlink:href")) as [[|c r]|];
    try (simpl; unfold ret; rewrite app_nil_r; reflexivity).
  cbn [falsyString negb orb andb ToString].
  destruct (startsWith (String c r) "data:image");
    [|simpl; unfold ret; rewrite app_nil_r; reflexivity].
  cbn [andb].
  match goal with
  | |- context [if ?b then report _ else _] => destruct b
  end; [reflexivity | unfold ret; rewrite app_nil_r; reflexivity].
Qed.

(** The whole loop: the diagnostics of the images that [exceed], in the
    order of the list. *)
Lemma forEach_checkImage (filePath : string) (svgWidth svgHeight : Number)
      (images : list DOM.Element) (reports : list Diagnostic) :
  forEach images
          (checkImage host context_options filePath svgWidth svgHeight) reports
  = (Normal tt,
     reports
       ++ map (oversizedDiagnostic (path_relative host filePath)
                                   svgWidth svgHeight)
              (filter (exceeds (maxSizeRatio context_options)
                               svgWidth svgHeight) images))%list.
Proof.
  revert reports. induction images as [|image images IH]; intros reports.
  - simpl. unfold ret. rewrite app_nil_r. reflexivity.
  - cbn [forEach]. unfold bind. rewrite checkImage_reports, IH.
    cbn [filter].
    destruct (exceeds (maxSizeRatio context_options) svgWidth svgHeight image).
    + rewrite <- app_assoc. reflexivity.
    + rewrite app_nil_r. reflexivity.
Qed.

(** [checkSvgContent] once the parser has produced a document with a root
    element. *)
Lemma checkSvgContent_root (filePath content : string) (doc : DOM.Document)
      (root : DOM.Element) (reports : list Diagnostic) :
  parseFromString host content = Normal (Some doc) ->
  DOM.documentElement doc = Some root ->
  checkSvgContent host context_options filePath content reports
  = if negb (String.eqb (DOM.nodeName root) "svg")
    then (Normal tt, (reports ++ [invalidSvg "Not a valid SVG file"])%list)
    else
      let svgWidth := parseInt (DOM.getAttribute root "width") in
      let svgHeight := parseInt (DOM.getAttribute root "height") in
      if falsyNumber svgWidth || falsyNumber svgHeight
      then (Normal tt, (reports ++ [missingSvgDimensions])%list)
      else
        (Normal tt,
         (reports
            ++ map (oversizedDiagnostic (path_relative host filePath)
                                        svgWidth svgHeight)
                   (filter (exceeds (maxSizeRatio context_options)
                                    svgWidth svgHeight)
                           (DOM.getElementsByTagName root "image")))%list).
Proof.
  intros Hparse Hroot.
  unfold checkSvgContent, try_catch, bind, lift, parseSvgContent,
    get_documentElement.
  rewrite Hparse, Hroot.
  destruct (negb (String.eqb (DOM.nodeName root) "svg")); [reflexivity|].
  cbv zeta.
  destruct (falsyNumber (parseInt (DOM.getAttribute root "width"))
            || falsyNumber (parseInt (DOM.getAttribute root "height")));
    [reflexivity|].
  rewrite forEach_checkImage. reflexivity.
Qed.

(** [checkSvgContent] when there is no root element to look at: the parser
    threw, handed back nothing, or built a document without a root. *)
Lemma checkSvgContent_no_root (filePath content : string)
      (reports : list Diagnostic) :
  (forall doc root,
      parseFromString host content = Normal (Some doc) ->
      DOM.documentElement doc <> Some root) ->
  exists message,
    checkSvgContent host context_options filePath content reports
    = (Normal tt, (reports ++ [invalidSvg message])%list).
Proof.
  intros Hnone.
  unfold checkSvgContent, try_catch, bind, lift, parseSvgContent,
    get_documentElement.
  destruct (parseFromString host content) as [[doc|]|message] eqn:Hparse.
  - destruct (DOM.documentElement doc) as [root|] eqn:Hroot.
    + destruct (Hnone doc root eq_refl Hroot).
    + eexists. reflexivity.
  - eexists. reflexivity.
  - eexists. reflexivity.
Qed.

End RuleFacts.

(* ------------------------------------------------------------------ *)
(** ** The ratio check (C1, C8) *)
(* ------------------------------------------------------------------ *)

Lemma gt_mul_spec (a b ratio : JS.Number) :
  JS.gt a (JS.mul b ratio) = true <-> Spec.StrictlyLarger a b ratio.
Proof.
  unfold Spec.StrictlyLarger. split.
  - destruct a as [|x], b as [|y], ratio as [|k]; try discriminate.
    intros Hgt. apply gt_Num in Hgt. exists x, y, k. auto.
  - intros (x & y & k & -> & -> & -> & Hlt). apply gt_Num. exact Hlt.
Qed.

Lemma exceeds_spec (ratio svgWidth svgHeight : JS.Number)
      (image : DOM.Element) :
  Spec.exceeds ratio svgWidth svgHeight image = true
  <-> Spec.Offending ratio svgWidth svgHeight image.
Proof.
  unfold Spec.exceeds, Spec.Offending.
  rewrite !andb_true_iff, !negb_true_iff, orb_true_iff, !gt_mul_spec.
  tauto.
Qed.



(** The boundary of C1 on the README's root: an image of exactly twice the
    root's size is compliant under the default ratio, and one pixel more
    in width is reported. *)
Example exactly_twice_is_compliant :
  diagnostics
    (checkSvgContent Fixture.host None "/work/twice.svg" Fixture.twiceText)
  = [].
Proof. reflexivity. Qed.

Example one_more_is_reported :
  diagnostics
    (checkSvgContent Fixture.host None "/work/wide.svg" Fixture.wideText)
  = [oversizedImage (JS.Num (inject_Z 201)) (JS.Num (inject_Z 10))
                    (JS.Num (inject_Z 100)) (JS.Num (inject_Z 100))
                    "wide.svg"].
Proof. reflexivity. Qed.

(** The two examples of the README under the default ratio. *)
Example readme_invalid_example :
  diagnostics (checkSvgFile Fixture.host None "/work/bad.svg")
  = [oversizedImage (JS.Num (inject_Z 300)) (JS.Num (inject_Z 300))
                    (JS.Num (inject_Z 100)) (JS.Num (inject_Z 100))
                    "bad.svg"].
Proof. reflexivity. Qed.

Example readme_valid_example :
  diagnostics (checkSvgFile Fixture.host None "/work/good.svg") = [].
Proof. reflexivity. Qed.



(* ------------------------------------------------------------------ *)
(** ** The dimension resolver (C2, C3, C7) *)
(* ------------------------------------------------------------------ *)













Example parseInt_100 : JS.parseInt (Some "100") = JS.Num (inject_Z 100).
Proof. reflexivity. Qed.
Example parseInt_100px : JS.parseInt (Some "100px") = JS.Num (inject_Z 100).
Proof. reflexivity. Qed.
Example parseInt_100abc : JS.parseInt (Some "100abc") = JS.Num (inject_Z 100).
Proof. reflexivity. Qed.
Example parseInt_12_5 : JS.parseInt (Some "12.5") = JS.Num (inject_Z 12).
Proof. reflexivity. Qed.
Example parseInt_spaces_sign :
  JS.parseInt (Some "  +42em") = JS.Num (inject_Z 42).
Proof. reflexivity. Qed.
Example parseInt_px100 : JS.parseInt (Some "px100") = JS.NaN.
Proof. reflexivity. Qed.
Example parseInt_empty : JS.parseInt (Some EmptyString) = JS.NaN.
Proof. reflexivity. Qed.
Example parseInt_null : JS.parseInt None = JS.NaN.
Proof. reflexivity. Qed.

(** A root given in pixels is read like the bare numbers. *)
Example root_in_px :
  diagnostics
    (checkSvgContent Fixture.host None "/work/a.svg" Fixture.pixelsText)
  = [oversizedImage (JS.Num (inject_Z 300)) (JS.Num (inject_Z 300))
                    (JS.Num (inject_Z 100)) (JS.Num (inject_Z 100)) "a.svg"].
Proof. reflexivity. Qed.

(* ------------------------------------------------------------------ *)
(** ** The reference of an image (C4) *)
(* ------------------------------------------------------------------ *)





(** The prefix is compared character by character: other capitals do not
    count. *)
Example prefix_is_case_sensitive :
  Spec.embedded (Fixture.image "300" "300"
                               [("href", "DATA:IMAGE/png;base64,AA==")])
  = false
  /\ Spec.embedded (Fixture.image "300" "300"
                                  [("href", "data:Image/png;base64,AA==")])
     = false
  /\ Spec.embedded (Fixture.image "300" "300"
                                  [("href", "data:image/png;base64,AA==")])
     = true.
Proof. repeat split. Qed.


(* ------------------------------------------------------------------ *)
(** ** Documents without an [svg] root (C6, C9) *)
(* ------------------------------------------------------------------ *)

(** C6.  When the parser produces a document whose root element is not
    named exactly ["svg"], the reports are one [invalidSvg] with the fixed
    text ["Not a valid SVG file"], and nothing else. *)
Theorem C6_root_not_svg_is_invalid
        (host : Host) (context_options : option Options)
        (filePath content : string) (doc : DOM.Document) (root : DOM.Element) :
  parseFromString host content = Normal (Some doc) ->
  DOM.documentElement doc = Some root ->
  DOM.nodeName root <> "svg" ->
  diagnostics (checkSvgContent host context_options filePath content)
  = [invalidSvg "Not a valid SVG file"].
Proof.
  intros Hparse Hroot Hname. unfold diagnostics.
  rewrite (checkSvgContent_root host context_options filePath content doc root
             [] Hparse Hroot).
  apply String.eqb_neq in Hname. rewrite Hname. reflexivity.
Qed.

Lemma C6_witness :
  diagnostics
    (checkSvgContent Fixture.host None "/work/a.svg" Fixture.capitalsText)
  = [invalidSvg "Not a valid SVG file"].
Proof.
  exact (C6_root_not_svg_is_invalid
           Fixture.host None "/work/a.svg" Fixture.capitalsText _ _
           eq_refl eq_refl ltac:(discriminate)).
Defined.

Lemma whitespace_has_no_markup (content : string) :
  Spec.whitespaceOnly content = true ->
  Spec.containsChar "<" content = false.
Proof.
  unfold Spec.whitespaceOnly.
  induction content as [|c content IH]; simpl; [reflexivity|].
  intros H. apply andb_prop in H as [Hc Hrest]. rewrite (IH Hrest).
  rewrite orb_false_r.
  destruct c as [[] [] [] [] [] [] [] []]; try reflexivity;
    vm_compute in Hc; discriminate.
Qed.

(** C9.  An empty or white-space-only input gets exactly one [invalidSvg]
    and is never accepted without a report.  The parser is only asked not
    to find a root element where the input has no ["<"]; whether it then
    throws, hands back nothing or builds a document without a root, the
    rule reports [invalidSvg]. *)
Theorem C9_blank_input_is_invalid
        (host : Host) (context_options : option Options)
        (filePath content : string) :
  Spec.RootNeedsMarkup host ->
  Spec.whitespaceOnly content = true ->
  exists message,
    diagnostics (checkSvgContent host context_options filePath content)
    = [invalidSvg message].
Proof.
  intros Hparser Hblank.
  destruct (checkSvgContent_no_root host context_options filePath content [])
    as [message Hrun].
  - intros doc root Hparse Hroot.
    pose proof (Hparser content doc root Hparse Hroot) as Hmarkup.
    rewrite (whitespace_has_no_markup content Hblank) in Hmarkup.
    discriminate.
  - exists message. unfold diagnostics. rewrite Hrun. reflexivity.
Qed.

Lemma hostOf_root_needs_markup
      (files : list (string * string))
      (documents : list (string * DOM.Document)) :
  forallb (fun entry => Spec.containsChar "<" (fst entry)) documents = true ->
  Spec.RootNeedsMarkup (Fixture.hostOf files documents).
Proof.
  intros Hdocs content doc root.
  unfold Fixture.hostOf, parseFromString. intros Hparse _.
  induction documents as [|[text d] documents IH];
    [discriminate Hparse|].
  simpl in Hdocs, Hparse. apply andb_prop in Hdocs as [Htext Hdocs].
  destruct (String.eqb text content) eqn:Heq.
  - apply String.eqb_eq in Heq. subst content. exact Htext.
  - exact (IH Hdocs Hparse).
Qed.

Lemma C9_witness :
  exists message,
    diagnostics (checkSvgContent Fixture.host None "/work/blank.svg" "   ")
    = [invalidSvg message].
Proof.
  exact (C9_blank_input_is_invalid
           Fixture.host None "/work/blank.svg" "   "
           (hostOf_root_needs_markup Fixture.files Fixture.documents eq_refl)
           eq_refl).
Defined.

(** The three ways in which a parser can fail to give a root, on the empty
    input: it throws (xmldom 0.9), it hands back no document (xmldom 0.8),
    or the document has no root element. *)
Example empty_input_parser_throws :
  diagnostics
    (checkSvgContent
       (mkHost Fixture.relative (fun _ => Throw "unused") Fixture.regExp
               (fun _ => Throw "missing root element"))
       None "/work/empty.svg" EmptyString)
  = [invalidSvg "missing root element"].
Proof. reflexivity. Qed.

Example empty_input_no_document :
  diagnostics
    (checkSvgContent
       (mkHost Fixture.relative (fun _ => Throw "unused") Fixture.regExp
               (fun _ => Normal None))
       None "/work/empty.svg" EmptyString)
  = [invalidSvg undefinedDocumentMessage].
Proof. reflexivity. Qed.

Example empty_input_no_root :
  diagnostics
    (checkSvgContent
       (mkHost Fixture.relative (fun _ => Throw "unused") Fixture.regExp
               (fun _ => Normal (Some (DOM.mkDocument None))))
       None "/work/empty.svg" EmptyString)
  = [invalidSvg "Not a valid SVG file"].
Proof. reflexivity. Qed.

(* ------------------------------------------------------------------ *)
(** ** Ignored paths (C5) *)
(* ------------------------------------------------------------------ *)

(** [some] answers [true] at the first element the predicate accepts, if
    the predicate did not throw on the way there. *)
Lemma some_reaches {A} (predicate : A -> Completion bool)
      (before : list A) (x : A) (after : list A) :
  Forall (fun y => exists b, predicate y = Normal b) before ->
  predicate x = Normal true ->
  some predicate (before ++ x :: after) = Normal true.
Proof.
  intros Hbefore Hx. induction Hbefore as [|y before [b Hy] _ IH]; simpl.
  - rewrite Hx. reflexivity.
  - rewrite Hy. destruct b; [reflexivity | exact IH].
Qed.

Lemma checkSvgFile_ignored
      (host : Host) (context_options : option Options) (filePath : string)
      (reports : list Diagnostic) :
  shouldIgnoreFile host context_options filePath = Normal true ->
  checkSvgFile host context_options filePath reports = (Normal tt, reports).
Proof.
  intros Hignore. unfold checkSvgFile, try_catch, bind, lift.
  rewrite Hignore. reflexivity.
Qed.

(** C5, as the code has it.  When an ignore path matches the relative
    path of the file (its first ["*"] replaced by [".*"], the result used
    as a regular expression), and every ignore path before it in the list
    gives a regular expression that compiles, nothing is reported for the
    file: whatever reading the file and parsing its content would do, they
    do not take place. *)
Theorem C5_ignored_file_reports_nothing
        (relative : string -> string)
        (regExp : string -> Completion (string -> bool))
        (context_options : option Options) (filePath : string)
        (before : list string) (ignorePath : string) (after : list string)
        (test : string -> bool) :
  ignorePaths context_options = (before ++ ignorePath :: after)%list ->
  Forall (fun p => exists t, regExp (ignorePatternSource p) = Normal t)
         before ->
  regExp (ignorePatternSource ignorePath) = Normal test ->
  test (relative filePath) = true ->
  forall (readFile : string -> Completion string)
         (parse : string -> Completion (option DOM.Document)),
    let host := mkHost relative readFile regExp parse in
    shouldIgnoreFile host context_options filePath = Normal true
    /\ diagnostics (checkSvgFile host context_options filePath) = []
    /\ diagnostics (Program host context_options filePath) = [].
Proof.
  intros Hpaths Hbefore Hpattern Hmatch readFile parse host.
  assert (Hignore : shouldIgnoreFile host context_options filePath
                    = Normal true).
  { unfold shouldIgnoreFile. rewrite Hpaths. apply some_reaches.
    - eapply Forall_impl; [|exact Hbefore].
      intros p [t Ht]. simpl. rewrite Ht. eexists. reflexivity.
    - simpl. rewrite Hpattern, Hmatch. reflexivity. }
  repeat split.
  - exact Hignore.
  - unfold diagnostics. rewrite checkSvgFile_ignored by exact Hignore.
    reflexivity.
  - unfold diagnostics, Program, try_catch.
    rewrite checkSvgFile_ignored by exact Hignore. reflexivity.
Qed.

Lemma C5_witness :
  let context_options :=
    Some (mkOptions None (Some ["public/images/*"; "assets/icons/*"])) in
  shouldIgnoreFile Fixture.host context_options "/work/assets/icons/logo.svg"
  = Normal true
  /\ diagnostics (checkSvgFile Fixture.host context_options
                               "/work/assets/icons/logo.svg") = []
  /\ diagnostics (Program Fixture.host context_options
                          "/work/assets/icons/logo.svg") = [].
Proof.
  refine (C5_ignored_file_reports_nothing
            Fixture.relative Fixture.regExp
            (Some (mkOptions None (Some ["public/images/*"; "assets/icons/*"])))
            "/work/assets/icons/logo.svg"
            ["public/images/*"] "assets/icons/*" []
            (Fixture.search
               [(Fixture.Literal "a", false); (Fixture.Literal "s", false);
                (Fixture.Literal "s", false); (Fixture.Literal "e", false);
                (Fixture.Literal "t", false); (Fixture.Literal "s", false);
                (Fixture.Literal "/", false); (Fixture.Literal "i", false);
                (Fixture.Literal "c", false); (Fixture.Literal "o", false);
                (Fixture.Literal "n", false); (Fixture.Literal "s", false);
                (Fixture.Literal "/", false); (Fixture.AnyChar, true)])
            eq_refl _ eq_refl eq_refl
            (fs_readFile Fixture.host) (parseFromString Fixture.host)).
  constructor; [|constructor]. eexists. reflexivity.
Defined.

(** The same file is checked, and reported, when it is not ignored. *)
Example not_ignored_is_checked :
  diagnostics
    (checkSvgFile Fixture.host
                  (Some (mkOptions None (Some ["public/images/*"])))
                  "/work/assets/icons/logo.svg")
  = [oversizedImage (JS.Num (inject_Z 300)) (JS.Num (inject_Z 300))
                    (JS.Num (inject_Z 100)) (JS.Num (inject_Z 100))
                    "assets/icons/logo.svg"].
Proof. reflexivity. Qed.

(** C5 as stated fails when an ignore path before the matching one does
    not give a regular expression.  ["**/vendor/*"] becomes
    [".**/vendor/*"], which [RegExp] refuses; the exception leaves
    [shouldIgnoreFile] and is reported as [invalidSvg], although
    ["assets/icons/*"] matches the file. *)
Lemma C5_bad_pattern_before_the_match :
  let context_options :=
    Some (mkOptions None (Some ["**/vendor/*"; "assets/icons/*"])) in
  ignorePatternSource "**/vendor/*" = ".**/vendor/*"
  /\ (exists test,
         RegExp Fixture.host (ignorePatternSource "assets/icons/*")
         = Normal test
         /\ test (path_relative Fixture.host "/work/assets/icons/logo.svg")
            = true)
  /\ diagnostics (checkSvgFile Fixture.host context_options
                               "/work/assets/icons/logo.svg")
     = [invalidSvg
          "Invalid regular expression: /.**/vendor/*/: Nothing to repeat"].
Proof.
  split; [reflexivity|]. split; [|reflexivity].
  eexists. split; reflexivity.
Qed.

(** The same with a directory name that is no regular expression. *)
Example plus_in_a_directory_name :
  diagnostics
    (checkSvgFile Fixture.host
                  (Some (mkOptions None (Some ["c++/*"; "assets/icons/*"])))
                  "/work/assets/icons/logo.svg")
  = [invalidSvg "Invalid regular expression: /c++/.*/: Nothing to repeat"].
Proof. reflexivity. Qed.

(* ------------------------------------------------------------------ *)
(** ** The default ratio (C10) *)
(* ------------------------------------------------------------------ *)

(** The rule reads its options only through [maxSizeRatio] and
    [ignorePaths]. *)
Lemma checkSvgContent_ext
      (host : Host) (options1 options2 : option Options)
      (filePath content : string) (reports : list Diagnostic) :
  maxSizeRatio options1 = maxSizeRatio options2 ->
  checkSvgContent host options1 filePath content reports
  = checkSvgContent host options2 filePath content reports.
Proof.
  intros Hratio.
  destruct (parseFromString host content) as [[doc|]|message] eqn:Hparse.
  - destruct (DOM.documentElement doc) as [root|] eqn:Hroot.
    + rewrite !(checkSvgContent_root host _ filePath content doc root reports
                  Hparse Hroot).
      rewrite Hratio. reflexivity.
    + unfold checkSvgContent, try_catch, bind, lift, parseSvgContent,
        get_documentElement.
      rewrite Hparse, Hroot. reflexivity.
  - unfold checkSvgContent, try_catch, bind, lift, parseSvgContent.
    rewrite Hparse. reflexivity.
  - unfold checkSvgContent, try_catch, bind, lift, parseSvgContent.
    rewrite Hparse. reflexivity.
Qed.

Lemma checkSvgFile_ext
      (host : Host) (options1 options2 : option Options)
      (filePath : string) (reports : list Diagnostic) :
  maxSizeRatio options1 = maxSizeRatio options2 ->
  ignorePaths options1 = ignorePaths options2 ->
  checkSvgFile host options1 filePath reports
  = checkSvgFile host options2 filePath reports.
Proof.
  intros Hratio Hpaths.
  unfold checkSvgFile, try_catch, bind, lift, shouldIgnoreFile.
  rewrite Hpaths.
  destruct (some _ (ignorePaths options2)) as [[|]|message]; try reflexivity.
  destruct (fs_readFile host filePath) as [content|message]; [|reflexivity].
  rewrite (checkSvgContent_ext host options1 options2 filePath content reports
             Hratio).
  reflexivity.
Qed.

(** C10.  A configured [maxSizeRatio] that is falsy ([0], or [NaN]) is
    replaced by the default [2]: the ratio in force is the one of a
    configuration that leaves [maxSizeRatio] out, and the rule behaves the
    same in every respect. *)
Theorem C10_falsy_ratio_is_the_default
        (host : Host) (n : JS.Number) (paths : option (list string))
        (filePath : string) (reports : list Diagnostic) :
  JS.falsyNumber n = true ->
  maxSizeRatio (Some (mkOptions (Some n) paths)) = JS.Num 2
  /\ maxSizeRatio (Some (mkOptions None paths)) = JS.Num 2
  /\ maxSizeRatio None = JS.Num 2
  /\ checkSvgFile host (Some (mkOptions (Some n) paths)) filePath reports
     = checkSvgFile host (Some (mkOptions None paths)) filePath reports
  /\ Program host (Some (mkOptions (Some n) paths)) filePath reports
     = Program host (Some (mkOptions None paths)) filePath reports.
Proof.
  intros Hfalsy.
  assert (Hratio : maxSizeRatio (Some (mkOptions (Some n) paths))
                   = maxSizeRatio (Some (mkOptions None paths))).
  { unfold maxSizeRatio. simpl. rewrite Hfalsy. reflexivity. }
  assert (Hfile : checkSvgFile host (Some (mkOptions (Some n) paths))
                               filePath reports
                  = checkSvgFile host (Some (mkOptions None paths))
                                 filePath reports).
  { apply checkSvgFile_ext; [exact Hratio | reflexivity]. }
  repeat split.
  - rewrite Hratio. reflexivity.
  - exact Hfile.
  - unfold Program, try_catch. rewrite Hfile. reflexivity.
Qed.

Lemma C10_witness :
  maxSizeRatio (Some (mkOptions (Some (JS.Num 0)) None)) = JS.Num 2
  /\ maxSizeRatio (Some (mkOptions None None)) = JS.Num 2
  /\ maxSizeRatio None = JS.Num 2
  /\ checkSvgFile Fixture.host (Some (mkOptions (Some (JS.Num 0)) None))
                  "/work/good.svg" []
     = checkSvgFile Fixture.host (Some (mkOptions None None))
                    "/work/good.svg" []
  /\ Program Fixture.host (Some (mkOptions (Some (JS.Num 0)) None))
             "/work/good.svg" []
     = Program Fixture.host (Some (mkOptions None None)) "/work/good.svg" [].
Proof.
  exact (C10_falsy_ratio_is_the_default
           Fixture.host (JS.Num 0) None "/work/good.svg" [] eq_refl).
Defined.

(** With a ratio of [0] in force the 150x150 image of the README would be
    reported; it is not, because [2] is in force. *)
Example ratio_zero_checks_against_two :
  diagnostics
    (checkSvgFile Fixture.host (Some (mkOptions (Some (JS.Num 0)) None))
                  "/work/good.svg")
  = []
  /\ JS.gt (JS.Num (inject_Z 150)) (JS.mul (JS.Num (inject_Z 100)) (JS.Num 0))
     = true.
Proof. split; reflexivity. Qed.

(* ------------------------------------------------------------------ *)
(** ** Every failure becomes one diagnostic *)
(* ------------------------------------------------------------------ *)

(** The shape of what one file can get: a single [invalidSvg], a single
    [missingSvgDimensions], or [oversizedImage] diagnostics only. *)
Lemma checkSvgContent_shape
      (host : Host) (context_options : option Options)
      (filePath content : string) (reports : list Diagnostic) :
  exists reported,
    checkSvgContent host context_options filePath content reports
    = (Normal tt, (reports ++ reported)%list)
    /\ ((exists message, reported = [invalidSvg message])
        \/ reported = [missingSvgDimensions]
        \/ forallb Spec.isOversizedImage reported = true).
Proof.
  destruct (parseFromString host content) as [[doc|]|message] eqn:Hparse.
  - destruct (DOM.documentElement doc) as [root|] eqn:Hroot.
    + rewrite (checkSvgContent_root host context_options filePath content doc
                 root reports Hparse Hroot).
      destruct (negb (String.eqb (DOM.nodeName root) "svg")).
      * eexists. split; [reflexivity|]. left. eexists. reflexivity.
      * cbv zeta.
        destruct (JS.falsyNumber _ || JS.falsyNumber _).
        -- eexists. split; [reflexivity|]. right. left. reflexivity.
        -- eexists. split; [reflexivity|]. right. right.
           apply forallb_forall. intros d Hd.
           apply in_map_iff in Hd as [image [<- _]]. reflexivity.
    + exists [invalidSvg "Not a valid SVG file"]. split.
      * unfold checkSvgContent, try_catch, bind, lift, parseSvgContent,
          get_documentElement.
        rewrite Hparse, Hroot. reflexivity.
      * left. eexists. reflexivity.
  - exists [invalidSvg undefinedDocumentMessage]. split.
    + unfold checkSvgContent, try_catch, bind, lift, parseSvgContent.
      rewrite Hparse. reflexivity.
    + left. eexists. reflexivity.
  - exists [invalidSvg message]. split.
    + unfold checkSvgContent, try_catch, bind, lift, parseSvgContent.
      rewrite Hparse. reflexivity.
    + left. eexists. reflexivity.
Qed.

(** The [Program] handler always completes normally, and what it reports
    for a file is a single [invalidSvg], a single [missingSvgDimensions],
    or [oversizedImage] diagnostics only (none at all for an ignored or a
    compliant file). *)
Theorem Program_completes_with_one_kind_of_report
        (host : Host) (context_options : option Options) (filename : string)
        (reports : list Diagnostic) :
  exists reported,
    Program host context_options filename reports
    = (Normal tt, (reports ++ reported)%list)
    /\ ((exists message, reported = [invalidSvg message])
        \/ reported = [missingSvgDimensions]
        \/ forallb Spec.isOversizedImage reported = true).
Proof.
  unfold Program, checkSvgFile, try_catch, bind, lift.
  destruct (shouldIgnoreFile host context_options filename)
    as [[|]|message].
  - exists []. rewrite app_nil_r. split; [reflexivity|]. right. right.
    reflexivity.
  - destruct (fs_readFile host filename) as [content|message].
    + destruct (checkSvgContent_shape host context_options filename content
                  reports) as (reported & -> & Hshape).
      exists reported. split; [reflexivity | exact Hshape].
    + exists [invalidSvg message]. split; [reflexivity|].
      left. eexists. reflexivity.
  - exists [invalidSvg message]. split; [reflexivity|].
    left. eexists. reflexivity.
Qed.

(** A file that cannot be read, and content the parser throws on, each
    get exactly one [invalidSvg] that carries the failure's own message. *)
Theorem failure_message_is_preserved
        (host : Host) (context_options : option Options)
        (filePath content message : string) :
  (shouldIgnoreFile host context_options filePath = Normal false ->
   fs_readFile host filePath = Throw message ->
   diagnostics (checkSvgFile host context_options filePath)
   = [invalidSvg message])
  /\ (parseFromString host content = Throw message ->
      diagnostics (checkSvgContent host context_options filePath content)
      = [invalidSvg message]).
Proof.
  split.
  - intros Hignore Hread.
    unfold diagnostics, checkSvgFile, try_catch, bind, lift.
    rewrite Hignore, Hread. reflexivity.
  - intros Hparse.
    unfold diagnostics, checkSvgContent, try_catch, bind, lift,
      parseSvgContent.
    rewrite Hparse. reflexivity.
Qed.

Lemma failure_message_is_preserved_witness :
  diagnostics (checkSvgFile Fixture.host None "/work/gone.svg")
  = [invalidSvg "ENOENT: no such file or directory, open '/work/gone.svg'"].
Proof.
  exact (proj1 (failure_message_is_preserved
                  Fixture.host None "/work/gone.svg" EmptyString
                  "ENOENT: no such file or directory, open '/work/gone.svg'")
               eq_refl eq_refl).
Defined.

(* ------------------------------------------------------------------ *)
(** ** More on the builtins *)
(* ------------------------------------------------------------------ *)


(** Only the first ["*"] of an ignore path becomes [".*"]; what follows it
    is left as it is, any further ["*"] included. *)
Theorem only_the_first_star_is_translated (before after : string) :
  Spec.containsChar "*" before = false ->
  ignorePatternSource (before ++ String "*" after) = before ++ ".*" ++ after.
Proof.
  unfold ignorePatternSource.
  induction before as [|c before IH]; simpl; [reflexivity|].
  intros H. apply orb_false_elim in H as [Hc Hrest].
  rewrite Hc, (IH Hrest). reflexivity.
Qed.

Lemma only_the_first_star_is_translated_witness :
  ignorePatternSource "src/*/icons/*" = "src/.*/icons/*".
Proof.
  exact (only_the_first_star_is_translated "src/" "/icons/*" eq_refl).
Defined.

(* ------------------------------------------------------------------ *)
(** ** Runs compose: earlier reports are kept, files do not interfere *)
(* ------------------------------------------------------------------ *)

(** What [checkSvgContent] adds does not depend on what was reported
    before, and what was reported before is kept as it was. *)
Lemma checkSvgContent_frame
      (host : Host) (context_options : option Options)
      (filePath content : string) (reports : list Diagnostic) :
  checkSvgContent host context_options filePath content reports
  = (Normal tt,
     (reports
        ++ diagnostics
             (checkSvgContent host context_options filePath content))%list).
Proof.
  unfold diagnostics.
  destruct (parseFromString host content) as [[doc|]|message] eqn:Hparse.
  - destruct (DOM.documentElement doc) as [root|] eqn:Hroot.
    + rewrite !(checkSvgContent_root host context_options filePath content
                  doc root _ Hparse Hroot).
      destruct (negb (String.eqb (DOM.nodeName root) "svg")); [reflexivity|].
      cbv zeta.
      destruct (JS.falsyNumber _ || JS.falsyNumber _); reflexivity.
    + unfold checkSvgContent, try_catch, bind, lift, parseSvgContent,
        get_documentElement.
      rewrite Hparse, Hroot. reflexivity.
  - unfold checkSvgContent, try_catch, bind, lift, parseSvgContent.
    rewrite Hparse. reflexivity.
  - unfold checkSvgContent, try_catch, bind, lift, parseSvgContent.
    rewrite Hparse. reflexivity.
Qed.



(** For a file that is not ignored and can be read, the reports are those
    of its content: nothing is added and nothing is lost between
    [checkSvgFile] and [checkSvgContent]. *)
Theorem checkSvgFile_reports_what_the_content_gets
        (host : Host) (context_options : option Options)
        (filePath content : string) :
  shouldIgnoreFile host context_options filePath = Normal false ->
  fs_readFile host filePath = Normal content ->
  diagnostics (checkSvgFile host context_options filePath)
  = diagnostics (checkSvgContent host context_options filePath content).
Proof.
  intros Hignore Hread.
  unfold diagnostics at 1. unfold checkSvgFile, try_catch, bind, lift.
  rewrite Hignore, Hread.
  rewrite (checkSvgContent_frame host context_options filePath content []).
  reflexivity.
Qed.

Lemma checkSvgFile_reports_what_the_content_gets_witness :
  diagnostics
    (checkSvgFile Fixture.host
                  (Some (mkOptions None (Some ["public/images/*"])))
                  "/work/bad.svg")
  = diagnostics
      (checkSvgContent Fixture.host
                       (Some (mkOptions None (Some ["public/images/*"])))
                       "/work/bad.svg" Fixture.badText).
Proof.
  exact (checkSvgFile_reports_what_the_content_gets
           Fixture.host (Some (mkOptions None (Some ["public/images/*"])))
           "/work/bad.svg" Fixture.badText eq_refl eq_refl).
Defined.

(* ------------------------------------------------------------------ *)
(** ** The decision of [shouldIgnoreFile] *)
(* ------------------------------------------------------------------ *)

Lemma some_all_false {A} (predicate : A -> Completion bool) (array : list A) :
  Forall (fun x => predicate x = Normal false) array ->
  some predicate array = Normal false.
Proof.
  induction 1 as [|x array Hx _ IH]; simpl; [reflexivity|].
  rewrite Hx. exact IH.
Qed.

Lemma some_true_inv {A} (predicate : A -> Completion bool) (array : list A) :
  some predicate array = Normal true ->
  exists x, In x array /\ predicate x = Normal true.
Proof.
  induction array as [|y array IH]; simpl; [discriminate|].
  destruct (predicate y) as [[|]|message] eqn:Hy; try discriminate.
  - intros _. exists y. auto.
  - intros H. destruct (IH H) as [x [Hin Hx]]. exists x. auto.
Qed.

Lemma some_throws_at {A} (predicate : A -> Completion bool)
      (before : list A) (x : A) (after : list A) (message : string) :
  Forall (fun y => predicate y = Normal false) before ->
  predicate x = Throw message ->
  some predicate (before ++ x :: after) = Throw message.
Proof.
  intros Hbefore Hx. induction Hbefore as [|y before Hy _ IH]; simpl.
  - rewrite Hx. reflexivity.
  - rewrite Hy. exact IH.
Qed.

(** When every configured ignore path gives a regular expression that
    compiles, [shouldIgnoreFile] does not throw, and it answers [true]
    exactly when one of the ignore paths matches the relative path of the
    file. *)
Theorem shouldIgnoreFile_iff_some_path_matches
        (host : Host) (context_options : option Options) (filePath : string) :
  Forall (fun p =>
            exists test, RegExp host (ignorePatternSource p) = Normal test)
         (ignorePaths context_options) ->
  (exists ignore,
      shouldIgnoreFile host context_options filePath = Normal ignore)
  /\ (shouldIgnoreFile host context_options filePath = Normal true
      <-> exists p,
          In p (ignorePaths context_options)
          /\ Spec.Matches host (path_relative host filePath) p).
Proof.
  unfold shouldIgnoreFile.
  generalize (ignorePaths context_options) as paths.
  intros paths Hcompile. induction Hcompile as [|p paths [t Ht] _ [IHr IHiff]].
  - split; [exists false; reflexivity|]. simpl. split; [discriminate|].
    intros [p [[] _]].
  - cbn [some]. rewrite Ht.
    destruct (t (path_relative host filePath)) eqn:Hmatch.
    + split; [exists true; reflexivity|]. split; [|reflexivity].
      intros _. exists p. split; [left; reflexivity|].
      exists t. auto.
    + split; [exact IHr|]. rewrite IHiff. split.
      * intros [q [Hin Hq]]. exists q. split; [right; exact Hin | exact Hq].
      * intros [q [[<- | Hin] Hq]].
        -- destruct Hq as [t' [Ht' Hm]]. congruence.
        -- exists q. auto.
Qed.

Lemma shouldIgnoreFile_iff_some_path_matches_witness :
  (exists ignore,
      shouldIgnoreFile Fixture.host
        (Some (mkOptions None (Some ["public/images/*"; "assets/icons/*"])))
        "/work/assets/icons/logo.svg" = Normal ignore)
  /\ (shouldIgnoreFile Fixture.host
        (Some (mkOptions None (Some ["public/images/*"; "assets/icons/*"])))
        "/work/assets/icons/logo.svg" = Normal true
      <-> exists p,
          In p ["public/images/*"; "assets/icons/*"]
          /\ Spec.Matches Fixture.host "assets/icons/logo.svg" p).
Proof.
  apply (shouldIgnoreFile_iff_some_path_matches
           Fixture.host
           (Some (mkOptions None (Some ["public/images/*"; "assets/icons/*"])))
           "/work/assets/icons/logo.svg").
  repeat constructor; eexists; reflexivity.
Defined.

(** An ignore path that gives no valid regular expression, reached before
    any ignore path has matched, turns into one [invalidSvg] with the
    [SyntaxError]'s message for the file, whatever the file is: it is
    neither read nor parsed. *)
Theorem invalid_ignore_path_is_reported_for_the_file
        (relative : string -> string)
        (regExp : string -> Completion (string -> bool))
        (context_options : option Options) (filePath : string)
        (before : list string) (ignorePath : string) (after : list string)
        (message : string) :
  ignorePaths context_options = (before ++ ignorePath :: after)%list ->
  Forall (fun p =>
            exists test,
              regExp (ignorePatternSource p) = Normal test
              /\ test (relative filePath) = false) before ->
  regExp (ignorePatternSource ignorePath) = Throw message ->
  forall (readFile : string -> Completion string)
         (parse : string -> Completion (option DOM.Document)),
    diagnostics
      (checkSvgFile (mkHost relative readFile regExp parse) context_options
                    filePath)
    = [invalidSvg message].
Proof.
  intros Hpaths Hbefore Hbad readFile parse.
  unfold diagnostics, checkSvgFile, try_catch, bind, lift, shouldIgnoreFile.
  rewrite Hpaths.
  rewrite (some_throws_at _ before ignorePath after message).
  - reflexivity.
  - eapply Forall_impl; [|exact Hbefore].
    intros p [t [Ht Hmiss]]. simpl in Ht |- *. rewrite Ht, Hmiss. reflexivity.
  - simpl. rewrite Hbad. reflexivity.
Qed.

Lemma invalid_ignore_path_is_reported_for_the_file_witness :
  diagnostics
    (checkSvgFile Fixture.host
       (Some (mkOptions None (Some ["public/images/*"; "**/*.svg"])))
       "/work/good.svg")
  = [invalidSvg "Invalid regular expression: /.**/*.svg/: Nothing to repeat"].
Proof.
  refine (invalid_ignore_path_is_reported_for_the_file
            Fixture.relative Fixture.regExp
            (Some (mkOptions None (Some ["public/images/*"; "**/*.svg"])))
            "/work/good.svg" ["public/images/*"] "**/*.svg" []
            "Invalid regular expression: /.**/*.svg/: Nothing to repeat"
            eq_refl _ eq_refl
            (fs_readFile Fixture.host) (parseFromString Fixture.host)).
  constructor; [|constructor]. eexists. split; reflexivity.
Defined.

(** What becomes of an ignore path: without a ["*"] it is handed to
    [RegExp] as it is (neither escaped nor anchored); otherwise it splits at
    its first ["*"], which alone becomes [".*"]. *)
Theorem ignorePatternSource_cases (ignorePath : string) :
  (Spec.containsChar "*" ignorePath = false
   /\ ignorePatternSource ignorePath = ignorePath)
  \/ (exists before after,
         Spec.containsChar "*" before = false
         /\ ignorePath = before ++ String "*" after
         /\ ignorePatternSource ignorePath = before ++ ".*" ++ after).
Proof.
  unfold ignorePatternSource.
  induction ignorePath as [|c rest IH].
  - left. split; reflexivity.
  - simpl. destruct (Ascii.eqb c "*") eqn:Hc.
    + right. apply Ascii.eqb_eq in Hc. subst c.
      exists EmptyString, rest. repeat split.
    + destruct IH as [[Hnone Hsame] | (before & after & Hnone & Hsplit & Hsrc)].
      * left. simpl. rewrite Hnone, Hsame. split; reflexivity.
      * right. exists (String c before), after. simpl.
        rewrite Hc, Hnone, Hsrc, <- Hsplit. repeat split.
Qed.

(* ------------------------------------------------------------------ *)
(** ** Which elements are scanned *)
(* ------------------------------------------------------------------ *)

(** Induction on elements through their child elements. *)
Lemma Element_children_ind (P : DOM.Element -> Prop) :
  (forall e, (forall c, In (inl c) (DOM.childNodes e) -> P c) -> P e) ->
  forall e, P e.
Proof.
  intros step. fix IH 1. intros [name attrs children].
  apply step. simpl.
  induction children as [|[c | text] children IHchildren];
    intros d Hin; simpl in Hin.
  - contradiction.
  - destruct Hin as [Heq | Hin].
    + injection Heq as <-. apply IH.
    + apply IHchildren. exact Hin.
  - destruct Hin as [Heq | Hin]; [discriminate | apply IHchildren; exact Hin].
Qed.

Lemma in_flat_map_children (tag : string) (x : DOM.Element)
      (children : list (DOM.Element + string)) :
  In x (flat_map (fun child =>
                    match child with
                    | inl e' => DOM.elementsNamed tag e'
                    | inr _ => []
                    end) children)
  <-> exists c, In (inl c) children /\ In x (DOM.elementsNamed tag c).
Proof.
  rewrite in_flat_map. split.
  - intros [[c | text] [Hin Hx]]; [exists c; auto | contradiction].
  - intros [c [Hin Hx]]. exists (inl c). auto.
Qed.

Lemma elementsNamed_unfold (tag : string) (e : DOM.Element) :
  DOM.elementsNamed tag e
  = ((if String.eqb (DOM.nodeName e) tag then [e] else [])
       ++ DOM.getElementsByTagName e tag)%list.
Proof. destruct e. reflexivity. Qed.

Lemma elementsNamed_spec (tag : string) (e x : DOM.Element) :
  In x (DOM.elementsNamed tag e)
  <-> (x = e \/ Spec.Descendant x e) /\ DOM.nodeName x = tag.
Proof.
  revert x. induction e as [e IH] using Element_children_ind. intros x.
  rewrite elementsNamed_unfold, in_app_iff.
  unfold DOM.getElementsByTagName. rewrite in_flat_map_children. split.
  - intros [Hself | [c [Hc Hx]]].
    + destruct (String.eqb (DOM.nodeName e) tag) eqn:Hname;
        [|contradiction].
      destruct Hself as [<- | []]. apply String.eqb_eq in Hname. auto.
    + apply (IH c Hc) in Hx as [[-> | Hdeep] Hname]; split; try assumption;
        right.
      * apply Spec.descendant_child. exact Hc.
      * apply (Spec.descendant_deeper x c e Hc Hdeep).
  - intros [[-> | Hdesc] Hname].
    + left. apply String.eqb_eq in Hname. rewrite Hname. left. reflexivity.
    + right. destruct Hdesc as [d e' Hc | d c e' Hc Hdeep].
      * exists d. split; [exact Hc|]. apply (IH d Hc). auto.
      * exists c. split; [exact Hc|]. apply (IH c Hc). auto.
Qed.

(** [getElementsByTagName(tag)] on an element gives exactly its
    descendants of that name, at any depth; the element itself is not
    among them on its own account. *)
Lemma getElementsByTagName_spec (tag : string) (e x : DOM.Element) :
  In x (DOM.getElementsByTagName e tag)
  <-> Spec.Descendant x e /\ DOM.nodeName x = tag.
Proof.
  unfold DOM.getElementsByTagName. rewrite in_flat_map_children. split.
  - intros [c [Hc Hx]].
    apply elementsNamed_spec in Hx as [[-> | Hdeep] Hname]; split;
      try assumption.
    + apply Spec.descendant_child. exact Hc.
    + apply (Spec.descendant_deeper x c e Hc Hdeep).
  - intros [Hdesc Hname]. destruct Hdesc as [d e' Hc | d c e' Hc Hdeep].
    + exists d. split; [exact Hc|]. apply elementsNamed_spec. auto.
    + exists c. split; [exact Hc|]. apply elementsNamed_spec. auto.
Qed.



Example nested_image_is_reported :
  diagnostics
    (checkSvgContent Fixture.nestedHost None "/work/nested.svg"
                     Fixture.nestedText)
  = [oversizedImage (JS.Num (inject_Z 300)) (JS.Num (inject_Z 300))
                    (JS.Num (inject_Z 100)) (JS.Num (inject_Z 100))
                    "nested.svg"].
Proof. reflexivity. Qed.

(* ------------------------------------------------------------------ *)
(** ** The ratio and the file name *)
(* ------------------------------------------------------------------ *)

(** With positive root dimensions a larger ratio never adds a finding:
    whatever is reported under the larger ratio is reported under the
    smaller one. *)
Theorem larger_ratio_reports_no_more
        (host : Host) (options1 options2 : option Options)
        (filePath content : string) (doc : DOM.Document) (svg : DOM.Element)
        (W H : Z) (k1 k2 : Q) :
  parseFromString host content = Normal (Some doc) ->
  DOM.documentElement doc = Some svg ->
  DOM.nodeName svg = "svg" ->
  JS.parseInt (DOM.getAttribute svg "width") = JS.Num (inject_Z W) ->
  JS.parseInt (DOM.getAttribute svg "height") = JS.Num (inject_Z H) ->
  0 < W -> 0 < H ->
  maxSizeRatio options1 = JS.Num k1 ->
  maxSizeRatio options2 = JS.Num k2 ->
  (k1 <= k2)%Q ->
  incl (diagnostics (checkSvgContent host options2 filePath content))
       (diagnostics (checkSvgContent host options1 filePath content)).
Proof.
  intros Hparse Hroot Hname HW HH HWpos HHpos Hk1 Hk2 Hle d.
  unfold diagnostics.
  rewrite !(checkSvgContent_root host _ filePath content doc svg [] Hparse
              Hroot).
  rewrite Hname. cbn [String.eqb Ascii.eqb Bool.eqb negb]. cbv zeta.
  rewrite HW, HH, Hk1, Hk2.
  assert (HfW : JS.falsyNumber (JS.Num (inject_Z W)) = false).
  { apply not_true_iff_false. rewrite falsyNumber_inject_Z. lia. }
  assert (HfH : JS.falsyNumber (JS.Num (inject_Z H)) = false).
  { apply not_true_iff_false. rewrite falsyNumber_inject_Z. lia. }
  rewrite HfW, HfH. cbn [orb snd app].
  rewrite !in_map_iff. intros [image [Hd Hin]]. exists image.
  split; [exact Hd|].
  apply filter_In in Hin as [Hin Hex]. apply filter_In. split; [exact Hin|].
  apply exceeds_spec in Hex as (He & Hw & Hh & Hgt).
  apply exceeds_spec. repeat split; try assumption.
  assert (Hmono : forall (a : JS.Number) (D : Z),
             0 < D ->
             Spec.StrictlyLarger a (JS.Num (inject_Z D)) (JS.Num k2) ->
             Spec.StrictlyLarger a (JS.Num (inject_Z D)) (JS.Num k1)).
  { intros a D HD (x & y & k & -> & [= <-] & [= <-] & Hlt).
    exists x, (inject_Z D), k1. repeat split.
    eapply Qle_lt_trans; [|exact Hlt].
    apply Qmult_le_l; [|exact Hle].
    change 0%Q with (inject_Z 0). rewrite <- Zlt_Qlt. exact HD. }
  destruct Hgt as [Hgt | Hgt]; [left | right]; eapply Hmono; eassumption.
Qed.

Lemma larger_ratio_reports_no_more_witness :
  incl (diagnostics
          (checkSvgContent Fixture.host
             (Some (mkOptions (Some (JS.Num 4)) None))
             "/work/bad.svg" Fixture.badText))
       (diagnostics
          (checkSvgContent Fixture.host None "/work/bad.svg" Fixture.badText)).
Proof.
  apply (larger_ratio_reports_no_more
           Fixture.host None (Some (mkOptions (Some (JS.Num 4)) None))
           "/work/bad.svg" Fixture.badText Fixture.bad
           (DOM.mkElement "svg" [("width", "100"); ("height", "100")]
                          [inl (Fixture.image "300" "300" Fixture.png)])
           100 100 2%Q 4%Q); try reflexivity; try lia.
  discriminate.
Defined.

(** The file path enters the findings only as the [filename] they carry:
    the same content under another path gets the same reports, renamed. *)
Theorem file_path_only_names_the_findings
        (host : Host) (context_options : option Options)
        (filePath otherPath content : string) :
  diagnostics (checkSvgContent host context_options otherPath content)
  = map (Spec.setFilename (path_relative host otherPath))
        (diagnostics (checkSvgContent host context_options filePath content)).
Proof.
  unfold diagnostics.
  destruct (parseFromString host content) as [[doc|]|message] eqn:Hparse.
  - destruct (DOM.documentElement doc) as [root|] eqn:Hroot.
    + rewrite !(checkSvgContent_root host context_options _ content doc root
                  [] Hparse Hroot).
      destruct (negb (String.eqb (DOM.nodeName root) "svg")); [reflexivity|].
      cbv zeta.
      destruct (JS.falsyNumber _ || JS.falsyNumber _); [reflexivity|].
      cbn [snd app]. rewrite map_map. reflexivity.
    + unfold checkSvgContent, try_catch, bind, lift, parseSvgContent,
        get_documentElement.
      rewrite Hparse, Hroot. reflexivity.
  - unfold checkSvgContent, try_catch, bind, lift, parseSvgContent.
    rewrite Hparse. reflexivity.
  - unfold checkSvgContent, try_catch, bind, lift, parseSvgContent.
    rewrite Hparse. reflexivity.
Qed.

(** A negative root width is not rejected, and under a positive ratio the
    threshold it gives is negative: every embedded image below the root
    with a positive width and a resolved height is then reported,
    however small it is. *)
Theorem negative_root_width_reports_every_embedded_image
        (host : Host) (context_options : option Options)
        (filePath content : string) (doc : DOM.Document)
        (svg image : DOM.Element) (W w : Z) (k : Q) :
  parseFromString host content = Normal (Some doc) ->
  DOM.documentElement doc = Some svg ->
  DOM.nodeName svg = "svg" ->
  JS.parseInt (DOM.getAttribute svg "width") = JS.Num (inject_Z W) ->
  W < 0 ->
  JS.falsyNumber (JS.parseInt (DOM.getAttribute svg "height")) = false ->
  maxSizeRatio context_options = JS.Num k ->
  (0 < k)%Q ->
  Spec.Descendant image svg ->
  DOM.nodeName image = "image" ->
  Spec.embedded image = true ->
  Spec.imageWidth image = JS.Num (inject_Z w) ->
  0 < w ->
  JS.falsyNumber (Spec.imageHeight image) = false ->
  In (Spec.oversizedDiagnostic
        (path_relative host filePath) (JS.Num (inject_Z W))
        (JS.parseInt (DOM.getAttribute svg "height")) image)
     (diagnostics (checkSvgContent host context_options filePath content)).
Proof.
  intros Hparse Hroot Hname HW HWneg HH Hk Hkpos Hdesc Himage Hemb Hw Hwpos
         Hh.
  unfold diagnostics.
  rewrite (checkSvgContent_root host context_options filePath content doc svg
             [] Hparse Hroot).
  rewrite Hname. cbn [String.eqb Ascii.eqb Bool.eqb negb]. cbv zeta.
  rewrite HW, HH, Hk.
  assert (HfW : JS.falsyNumber (JS.Num (inject_Z W)) = false).
  { apply not_true_iff_false. rewrite falsyNumber_inject_Z. lia. }
  rewrite HfW. cbn [orb snd app].
  apply in_map. apply filter_In. split.
  - apply getElementsByTagName_spec. auto.
  - apply exceeds_spec. unfold Spec.Offending. rewrite Hw.
    repeat split; try assumption.
    + apply not_true_iff_false. rewrite falsyNumber_inject_Z. lia.
    + left. exists (inject_Z w), (inject_Z W), k. repeat split.
      apply Qlt_trans with (y := 0%Q).
      * setoid_replace 0%Q with (0 * k)%Q by ring.
        apply Qmult_lt_compat_r; [exact Hkpos|].
        change 0%Q with (inject_Z 0). rewrite <- Zlt_Qlt. exact HWneg.
      * change 0%Q with (inject_Z 0). rewrite <- Zlt_Qlt. exact Hwpos.
Qed.

Lemma negative_root_width_reports_every_embedded_image_witness :
  In (oversizedImage (JS.Num (inject_Z 10)) (JS.Num (inject_Z 10))
                     (JS.Num (inject_Z (-5))) (JS.Num (inject_Z 100))
                     "tiny.svg")
     (diagnostics
        (checkSvgContent Fixture.host None "/work/tiny.svg"
                         Fixture.negativeRootText)).
Proof.
  apply (negative_root_width_reports_every_embedded_image
           Fixture.host None "/work/tiny.svg" Fixture.negativeRootText
           Fixture.negativeRoot
           (DOM.mkElement "svg" [("width", "-5"); ("height", "100")]
                          [inl (Fixture.image "10" "10" Fixture.png)])
           (Fixture.image "10" "10" Fixture.png) (-5) 10 2%Q);
    try reflexivity; try lia.
  apply Spec.descendant_child. left. reflexivity.
Defined.
